(** * Spirix special-value encoding for GPU kernels

    A shallow embedding of [src/gpu/spirix_constants.h]: the literal
    catalogue, the detection helpers, the creation helpers and the division
    edge-case resolver, followed by the properties established about them.

    Conventions of the embedding.
    - An [int16_t] is a [Z] in [-32768, 32767]; the casts [(int16_t)e] and
      [(uint16_t)e] are written out as wrap-around ([cast_int16],
      [cast_uint16]).
    - A C [int] used as a truth value stays a [Z]: the operators [==], [!=],
      [&&], [||] and [!] yield [0] or [1], and [if (c)] tests [c] against [0].
    - A pointer is a location, and memory is a finite map from locations to
      the 16-bit values stored there (a location that has never been written
      has no entry). A [static inline void] that writes through its pointer
      arguments is a function from memory to memory. *)

From Stdlib Require Import ZArith Lia List Ascii String.
From stdpp Require Import gmap strings.

Local Open Scope Z_scope.

(** ** Integer representation *)

Module CInt.

(** The conversion [(int16_t)z]. *)
Definition cast_int16 (z : Z) : Z := (z + 32768) mod 65536 - 32768.

(** The conversion [(uint16_t)z]. *)
Definition cast_uint16 (z : Z) : Z := z mod 65536.

(** The values an [int16_t] object can hold. *)
Definition int16 (z : Z) : Prop := -32768 <= z <= 32767.

(** Binary integer literals: [0b "101"] reads the C literal [0b101]. *)
Fixpoint bin_digits (s : string) (acc : Z) : Z :=
  match s with
  | EmptyString => acc
  | String c rest =>
      bin_digits rest (2 * acc + (if Ascii.eqb c "1"%char then 1 else 0))
  end.

Definition bin (s : string) : Z := bin_digits s 0.

(** Operators on [int] truth values. *)
Definition c_eq (a b : Z) : Z := if a =? b then 1 else 0.
Definition c_ne (a b : Z) : Z := if a =? b then 0 else 1.
Definition c_not (a : Z) : Z := if a =? 0 then 1 else 0.
Definition c_and (a b : Z) : Z :=
  if a =? 0 then 0 else if b =? 0 then 0 else 1.
Definition c_or (a b : Z) : Z :=
  if a =? 0 then (if b =? 0 then 0 else 1) else 1.

(** [if (c) t else e]. *)
Definition c_if {A : Type} (c : Z) (t e : A) : A :=
  if c =? 0 then e else t.

End CInt.

Export CInt.

Declare Scope c_scope.
Delimit Scope c_scope with C.
Notation "'0b' s" := (bin s) (at level 1, s at level 0, format "'0b' s") : c_scope.
Infix "==" := c_eq (at level 70, no associativity) : c_scope.
Infix "!=" := c_ne (at level 70, no associativity) : c_scope.
Infix "&&" := c_and (at level 40, left associativity) : c_scope.
Infix "||" := c_or (at level 50, left associativity) : c_scope.
Notation "'If' c 'Then' t 'Else' e" :=
  (c_if c t e) (at level 10, e at level 200) : c_scope.

Local Open Scope c_scope.

(** ** Encoding layout: the literal catalogue *)

(** Ambiguous exponent marker. *)
Definition SPIRIX_AMBIGUOUS_EXPONENT : Z := cast_int16 0b"1000000000000000".

(** Level 0: Zero and Infinity. *)
Definition SPIRIX_ZERO_FRACTION : Z := cast_int16 0b"0000000000000000".
Definition SPIRIX_INFINITY_FRACTION : Z := cast_int16 0b"1111111111111111".

(** Level 2: Vanished. *)
Definition SPIRIX_VANISHED_POS_PREFIX : Z := cast_int16 0b"0010000000000000".
Definition SPIRIX_VANISHED_NEG_PREFIX : Z := cast_int16 0b"1101111111111111".

(** Level 3: basic operators. *)
Definition SPIRIX_UNDEF_TRANSFINITE_PLUS_TRANSFINITE : Z := cast_int16 0b"0001111100000000".
Definition SPIRIX_UNDEF_TRANSFINITE_MINUS_TRANSFINITE : Z := cast_int16 0b"1110000000000000".
Definition SPIRIX_UNDEF_VANISHED_PLUS_VANISHED : Z := cast_int16 0b"0001111000000000".
Definition SPIRIX_UNDEF_VANISHED_MINUS_VANISHED : Z := cast_int16 0b"1110000100000000".

Definition SPIRIX_UNDEF_TRANSFINITE_PLUS_FINITE : Z := cast_int16 0b"0001110000000000".
Definition SPIRIX_UNDEF_TRANSFINITE_MINUS_FINITE : Z := cast_int16 0b"1110001100000000".

Definition SPIRIX_UNDEF_FINITE_PLUS_TRANSFINITE : Z := cast_int16 0b"0001100000000000".
Definition SPIRIX_UNDEF_FINITE_MINUS_TRANSFINITE : Z := cast_int16 0b"1110011100000000".

(** Division undefined states. *)
Definition SPIRIX_UNDEF_TRANSFINITE_DIV_TRANSFINITE : Z := cast_int16 0b"0001011000000000".
Definition SPIRIX_UNDEF_NEGLIGIBLE_DIV_NEGLIGIBLE : Z := cast_int16 0b"1110100100000000".

(** Multiplication undefined states. *)
Definition SPIRIX_UNDEF_NEGLIGIBLE_MUL_TRANSFINITE : Z := cast_int16 0b"0001000000000000".
Definition SPIRIX_UNDEF_TRANSFINITE_MUL_NEGLIGIBLE : Z := cast_int16 0b"1110111100000000".

(** Indeterminate sign/direction. *)
Definition SPIRIX_UNDEF_SIGN_INDETERMINATE : Z := cast_int16 0b"1110010000000000".

(** Level 4: powers and roots. *)
Definition SPIRIX_UNDEF_TRANSFINITE_POWER : Z := cast_int16 0b"0000111100000000".
Definition SPIRIX_UNDEF_NEGLIGIBLE_POWER : Z := cast_int16 0b"1111000000000000".
Definition SPIRIX_UNDEF_POWER_TRANSFINITE : Z := cast_int16 0b"0000111000000000".
Definition SPIRIX_UNDEF_POWER_NEGLIGIBLE : Z := cast_int16 0b"1111000100000000".
Definition SPIRIX_UNDEF_NEGATIVE_POWER : Z := cast_int16 0b"0000110100000000".
Definition SPIRIX_UNDEF_SQRT_NEGATIVE : Z := cast_int16 0b"1111011000000000".

(** Level 7: general. *)
Definition SPIRIX_UNDEF_GENERAL : Z := cast_int16 0b"1111111000000000".

(** ** Classifier: the detection helpers *)

Definition spirix_is_zero (fraction exponent : Z) : Z :=
  (fraction == SPIRIX_ZERO_FRACTION) && (exponent == SPIRIX_AMBIGUOUS_EXPONENT).

Definition spirix_is_infinity (fraction exponent : Z) : Z :=
  (fraction == SPIRIX_INFINITY_FRACTION) && (exponent == SPIRIX_AMBIGUOUS_EXPONENT).

Definition spirix_is_undefined (fraction exponent : Z) : Z :=
  If exponent != SPIRIX_AMBIGUOUS_EXPONENT Then 0
  Else
    let top3 := cast_uint16 (Z.shiftr (cast_uint16 fraction) 13) in
    ((top3 == 0b"000") || (top3 == 0b"111"))
    && (fraction != SPIRIX_ZERO_FRACTION)
    && (fraction != SPIRIX_INFINITY_FRACTION).

Definition spirix_is_finite (fraction exponent : Z) : Z :=
  If exponent == SPIRIX_AMBIGUOUS_EXPONENT Then
    c_not (spirix_is_zero fraction exponent)
    && c_not (spirix_is_infinity fraction exponent)
    && c_not (spirix_is_undefined fraction exponent)
  Else 1.

(** Modelled from the spec: [spirix_is_vanished], the predicate the header
    does not define. The spec asks for it ("a complete classifier must also
    expose is_vanished, checking tag 001/110"); it is written in the shape of
    [spirix_is_undefined], with the tag test of the data model. *)
Definition spirix_is_vanished (fraction exponent : Z) : Z :=
  If exponent != SPIRIX_AMBIGUOUS_EXPONENT Then 0
  Else
    let top3 := cast_uint16 (Z.shiftr (cast_uint16 fraction) 13) in
    (top3 == 0b"001") || (top3 == 0b"110").

(** ** Memory and statements *)

(** Locations are the addresses the pointer arguments hold. *)
Abbreviation loc := positive (only parsing).
Abbreviation mem := (gmap positive Z) (only parsing).

(** A statement transforms memory. *)
Definition stmt : Type := mem -> mem.

(** [*p = v;] *)
Definition assign (p : loc) (v : Z) : stmt := fun m => <[p := v]> m.

(** [s1 s2] in sequence. *)
Definition seq (s1 s2 : stmt) : stmt := fun m => s2 (s1 m).

(** Falling off the end of a [void] function. *)
Definition skip : stmt := fun m => m.

Notation "'*' p '::=' v" := (assign p v) (at level 60, p at level 0, v at level 59) : c_scope.
Notation "s1 ';;' s2" := (seq s1 s2) (at level 100, right associativity) : c_scope.

(** ** Constructor: the creation helpers *)

Definition spirix_create_zero (fraction exponent : loc) : stmt :=
  *fraction ::= SPIRIX_ZERO_FRACTION ;;
  *exponent ::= SPIRIX_AMBIGUOUS_EXPONENT.

Definition spirix_create_infinity (fraction exponent : loc) (positive : Z) : stmt :=
  *fraction ::= SPIRIX_INFINITY_FRACTION ;;
  *exponent ::= SPIRIX_AMBIGUOUS_EXPONENT.

Definition spirix_create_undefined (fraction exponent : loc) : stmt :=
  *fraction ::= SPIRIX_UNDEF_GENERAL ;;
  *exponent ::= SPIRIX_AMBIGUOUS_EXPONENT.

Definition spirix_create_undefined_zero_div_zero (fraction exponent : loc) : stmt :=
  *fraction ::= SPIRIX_UNDEF_NEGLIGIBLE_DIV_NEGLIGIBLE ;;
  *exponent ::= SPIRIX_AMBIGUOUS_EXPONENT.

Definition spirix_create_undefined_inf_minus_inf (fraction exponent : loc) : stmt :=
  *fraction ::= SPIRIX_UNDEF_TRANSFINITE_MINUS_TRANSFINITE ;;
  *exponent ::= SPIRIX_AMBIGUOUS_EXPONENT.

Definition spirix_create_undefined_inf_times_zero (fraction exponent : loc) : stmt :=
  *fraction ::= SPIRIX_UNDEF_TRANSFINITE_MUL_NEGLIGIBLE ;;
  *exponent ::= SPIRIX_AMBIGUOUS_EXPONENT.

(** ** Edge-case resolver for division *)

Section Resolver.

(** The infinity-by-infinity branch stores the sentinel through an
    identifier [result_exponent]. The function's parameters are
    [result_frac] and [result_exp], and the header declares no
    [result_exponent]: the name is free in the function. Its binding is
    whatever the including translation unit supplies, so the location it
    denotes is a parameter of the embedding. *)
Variable result_exponent : loc.

Definition spirix_gpu_safe_divide
    (a_frac a_exp b_frac b_exp : Z) (result_frac result_exp : loc) : stmt :=
  let a_is_zero := spirix_is_zero a_frac a_exp in
  let b_is_zero := spirix_is_zero b_frac b_exp in
  let a_is_inf := spirix_is_infinity a_frac a_exp in
  let b_is_inf := spirix_is_infinity b_frac b_exp in
  If a_is_zero && b_is_zero Then
    spirix_create_undefined_zero_div_zero result_frac result_exp
  Else If a_is_inf && b_is_inf Then
    *result_frac ::= SPIRIX_UNDEF_TRANSFINITE_DIV_TRANSFINITE ;;
    *result_exponent ::= SPIRIX_AMBIGUOUS_EXPONENT
  Else If b_is_zero && c_not a_is_zero Then
    spirix_create_infinity result_frac result_exp 1
  Else If a_is_zero Then
    spirix_create_zero result_frac result_exp
  Else
    skip.

End Resolver.

(** Reading an output pair back: the values at the two locations, when both
    have been written. *)
Definition load_pair (fraction exponent : loc) (m : mem) : option (Z * Z) :=
  match m !! fraction, m !! exponent with
  | Some f, Some e => Some (f, e)
  | _, _ => None
  end.

(** ** Vocabulary of the statements *)

(** The category tag of a fraction: its bits 15 to 13. *)
Definition fraction_tag (fraction : Z) : Z :=
  cast_uint16 (Z.shiftr (cast_uint16 fraction) 13).

(** A fraction carries a Vanished tag when its tag is [001] or [110]. *)
Definition vanished_tag (fraction : Z) : Prop :=
  fraction_tag fraction = 0b"001" \/ fraction_tag fraction = 0b"110".

(** How many of the four category predicates hold of a pair. *)
Definition holds (r : Z) : nat := if r =? 0 then 0%nat else 1%nat.

Definition categories_holding (fraction exponent : Z) : nat :=
  (holds (spirix_is_zero fraction exponent)
   + holds (spirix_is_infinity fraction exponent)
   + holds (spirix_is_vanished fraction exponent)
   + holds (spirix_is_undefined fraction exponent))%nat.

(** The named Undefined-subtype literals, in the order of the header. *)
Definition undefined_catalog : list Z :=
  [ SPIRIX_UNDEF_TRANSFINITE_PLUS_TRANSFINITE;
    SPIRIX_UNDEF_TRANSFINITE_MINUS_TRANSFINITE;
    SPIRIX_UNDEF_VANISHED_PLUS_VANISHED;
    SPIRIX_UNDEF_VANISHED_MINUS_VANISHED;
    SPIRIX_UNDEF_TRANSFINITE_PLUS_FINITE;
    SPIRIX_UNDEF_TRANSFINITE_MINUS_FINITE;
    SPIRIX_UNDEF_FINITE_PLUS_TRANSFINITE;
    SPIRIX_UNDEF_FINITE_MINUS_TRANSFINITE;
    SPIRIX_UNDEF_TRANSFINITE_DIV_TRANSFINITE;
    SPIRIX_UNDEF_NEGLIGIBLE_DIV_NEGLIGIBLE;
    SPIRIX_UNDEF_NEGLIGIBLE_MUL_TRANSFINITE;
    SPIRIX_UNDEF_TRANSFINITE_MUL_NEGLIGIBLE;
    SPIRIX_UNDEF_SIGN_INDETERMINATE;
    SPIRIX_UNDEF_TRANSFINITE_POWER;
    SPIRIX_UNDEF_NEGLIGIBLE_POWER;
    SPIRIX_UNDEF_POWER_TRANSFINITE;
    SPIRIX_UNDEF_POWER_NEGLIGIBLE;
    SPIRIX_UNDEF_NEGATIVE_POWER;
    SPIRIX_UNDEF_SQRT_NEGATIVE;
    SPIRIX_UNDEF_GENERAL ].

(** What the catalogue asks of one literal. *)
Definition well_placed (fraction : Z) : Prop :=
  fraction <> SPIRIX_ZERO_FRACTION
  /\ fraction <> SPIRIX_INFINITY_FRACTION
  /\ fraction <> SPIRIX_VANISHED_POS_PREFIX
  /\ fraction <> SPIRIX_VANISHED_NEG_PREFIX
  /\ spirix_is_undefined fraction SPIRIX_AMBIGUOUS_EXPONENT = 1
  /\ spirix_is_zero fraction SPIRIX_AMBIGUOUS_EXPONENT = 0
  /\ spirix_is_infinity fraction SPIRIX_AMBIGUOUS_EXPONENT = 0
  /\ spirix_is_vanished fraction SPIRIX_AMBIGUOUS_EXPONENT = 0
  /\ spirix_is_finite fraction SPIRIX_AMBIGUOUS_EXPONENT = 0.

(** How many of the header's own four predicates hold of a pair. *)
Definition predicates_holding (fraction exponent : Z) : nat :=
  (holds (spirix_is_zero fraction exponent)
   + holds (spirix_is_infinity fraction exponent)
   + holds (spirix_is_undefined fraction exponent)
   + holds (spirix_is_finite fraction exponent))%nat.

(** The answers of the four predicates on the pair stored at two locations. *)
Definition reads_as (fraction exponent : loc) (m : mem)
    (zero infinity undefined finite : Z) : Prop :=
  exists f e,
    load_pair fraction exponent m = Some (f, e)
    /\ e = SPIRIX_AMBIGUOUS_EXPONENT
    /\ spirix_is_zero f e = zero
    /\ spirix_is_infinity f e = infinity
    /\ spirix_is_undefined f e = undefined
    /\ spirix_is_finite f e = finite.

(** The six creation helpers as functions of their two pointers, the sign
    argument of [spirix_create_infinity] fixed. *)
Definition creation_helpers (sign : Z) : list (loc -> loc -> stmt) :=
  [ spirix_create_zero;
    (fun fraction exponent => spirix_create_infinity fraction exponent sign);
    spirix_create_undefined;
    spirix_create_undefined_zero_div_zero;
    spirix_create_undefined_inf_minus_inf;
    spirix_create_undefined_inf_times_zero ].

(** * Properties *)

(** ** Literals and operators *)

Lemma literal_values :
  SPIRIX_AMBIGUOUS_EXPONENT = -32768
  /\ SPIRIX_ZERO_FRACTION = 0
  /\ SPIRIX_INFINITY_FRACTION = -1
  /\ SPIRIX_VANISHED_POS_PREFIX = 8192
  /\ SPIRIX_VANISHED_NEG_PREFIX = -8193.
Proof. repeat split. Qed.

Lemma literals_are_int16 :
  Forall int16
    (SPIRIX_AMBIGUOUS_EXPONENT :: SPIRIX_ZERO_FRACTION
     :: SPIRIX_INFINITY_FRACTION :: SPIRIX_VANISHED_POS_PREFIX
     :: SPIRIX_VANISHED_NEG_PREFIX :: undefined_catalog).
Proof. repeat constructor; vm_compute; discriminate. Qed.

(** Replace the special literals by their values. *)
Ltac literals :=
  change SPIRIX_AMBIGUOUS_EXPONENT with (-32768) in *;
  change SPIRIX_ZERO_FRACTION with 0 in *;
  change SPIRIX_INFINITY_FRACTION with (-1) in *.

(** Case analysis on every comparison a C expression performs. *)
Ltac c_cases :=
  unfold c_if, c_and, c_or, c_not, c_eq, c_ne in *;
  repeat match goal with
    | |- context [Z.eqb ?a ?b] => destruct (Z.eqb_spec a b)
    | H : context [Z.eqb ?a ?b] |- _ => destruct (Z.eqb_spec a b)
    end;
  try reflexivity; try lia.

Lemma c_eq_true (a b : Z) : (a == b) <> 0 <-> a = b.
Proof. split; intros; c_cases. Qed.

Lemma c_and_true (a b : Z) : (a && b) <> 0 <-> a <> 0 /\ b <> 0.
Proof. split; intros; c_cases. Qed.

Lemma c_not_true (a : Z) : c_not a <> 0 <-> a = 0.
Proof. split; intros; c_cases. Qed.

(** ** The tag of a fraction *)

Lemma fraction_tag_div (fraction : Z) :
  fraction_tag fraction = (fraction mod 65536) / 8192.
Proof.
  unfold fraction_tag, cast_uint16.
  rewrite Z.shiftr_div_pow2 by lia.
  change (2 ^ 13) with 8192.
  apply Z.mod_small.
  pose proof (Z.mod_pos_bound fraction 65536 ltac:(lia)).
  split; [apply Z.div_pos; lia | apply Z.div_lt_upper_bound; lia].
Qed.

Lemma fraction_tag_range (fraction : Z) : 0 <= fraction_tag fraction <= 7.
Proof.
  rewrite fraction_tag_div.
  pose proof (Z.mod_pos_bound fraction 65536 ltac:(lia)).
  split; [apply Z.div_pos; lia |].
  assert (fraction mod 65536 / 8192 < 8) by (apply Z.div_lt_upper_bound; lia).
  lia.
Qed.

(** ** The classifier, predicate by predicate *)

Lemma spirix_is_zero_spec (fraction exponent : Z) :
  spirix_is_zero fraction exponent =
    if decide (fraction = 0 /\ exponent = -32768) then 1 else 0.
Proof. unfold spirix_is_zero. literals. case_decide; c_cases. Qed.

Lemma spirix_is_infinity_spec (fraction exponent : Z) :
  spirix_is_infinity fraction exponent =
    if decide (fraction = -1 /\ exponent = -32768) then 1 else 0.
Proof. unfold spirix_is_infinity. literals. case_decide; c_cases. Qed.

Lemma spirix_is_undefined_spec (fraction exponent : Z) :
  spirix_is_undefined fraction exponent =
    if decide (exponent = -32768
               /\ (fraction_tag fraction = 0 \/ fraction_tag fraction = 7)
               /\ fraction <> 0 /\ fraction <> -1)
    then 1 else 0.
Proof.
  unfold spirix_is_undefined. fold (fraction_tag fraction). literals.
  change (0b"000") with 0. change (0b"111") with 7.
  case_decide; c_cases.
Qed.

Lemma spirix_is_vanished_spec (fraction exponent : Z) :
  spirix_is_vanished fraction exponent =
    if decide (exponent = -32768
               /\ (fraction_tag fraction = 1 \/ fraction_tag fraction = 6))
    then 1 else 0.
Proof.
  unfold spirix_is_vanished. fold (fraction_tag fraction). literals.
  change (0b"001") with 1. change (0b"110") with 6.
  case_decide; c_cases.
Qed.

Lemma spirix_is_finite_spec (fraction exponent : Z) :
  spirix_is_finite fraction exponent =
    if decide (exponent = -32768
               /\ (fraction = 0 \/ fraction = -1
                   \/ fraction_tag fraction = 0 \/ fraction_tag fraction = 7))
    then 0 else 1.
Proof.
  unfold spirix_is_finite.
  rewrite spirix_is_zero_spec, spirix_is_infinity_spec, spirix_is_undefined_spec.
  literals. repeat case_decide; c_cases.
Qed.

Lemma fraction_tag_of_literals :
  fraction_tag SPIRIX_ZERO_FRACTION = 0 /\ fraction_tag SPIRIX_INFINITY_FRACTION = 7.
Proof. split; reflexivity. Qed.

(** Everything the proofs below need to know about the tag of [fraction]. *)
Lemma fraction_tag_facts (fraction : Z) :
  0 <= fraction_tag fraction <= 7
  /\ (fraction = 0 -> fraction_tag fraction = 0)
  /\ (fraction = -1 -> fraction_tag fraction = 7).
Proof.
  split; [apply fraction_tag_range |].
  split; intros ->; reflexivity.
Qed.

(** Rewrite the five predicates into their decision form and split cases. *)
Ltac classify fraction :=
  rewrite ?spirix_is_finite_spec, ?spirix_is_zero_spec, ?spirix_is_infinity_spec,
    ?spirix_is_undefined_spec, ?spirix_is_vanished_spec in *;
  literals;
  pose proof (fraction_tag_facts fraction);
  repeat case_decide.

(** ** The sentinel-exponent space *)

(** C2, as stated, fails: under the sentinel exponent the fraction
    [0b0100000000000000] (tag [010]) satisfies none of is_zero, is_infinity,
    is_vanished, is_undefined, so it is not true that exactly one of them
    holds. *)
Lemma sentinel_pair_in_no_category :
  let fraction := cast_int16 0b"0100000000000000" in
  let exponent := SPIRIX_AMBIGUOUS_EXPONENT in
  int16 fraction
  /\ spirix_is_zero fraction exponent = 0
  /\ spirix_is_infinity fraction exponent = 0
  /\ spirix_is_vanished fraction exponent = 0
  /\ spirix_is_undefined fraction exponent = 0
  /\ categories_holding fraction exponent <> 1%nat.
Proof. vm_compute. repeat split; discriminate. Qed.

(** C2, amended: for every pair whose exponent is the sentinel, no two of
    is_zero, is_infinity, is_vanished, is_undefined hold together, and exactly
    one of them holds precisely when the fraction's top three bits are 000,
    001, 110 or 111; for the tags 010, 011, 100 and 101 none of the four
    holds. *)
Theorem sentinel_categories_exclusive (fraction exponent : Z) :
  exponent = SPIRIX_AMBIGUOUS_EXPONENT ->
  (categories_holding fraction exponent <= 1)%nat
  /\ (categories_holding fraction exponent = 1%nat <->
      In (fraction_tag fraction) [0b"000"; 0b"001"; 0b"110"; 0b"111"])
  /\ (categories_holding fraction exponent = 0%nat <->
      In (fraction_tag fraction) [0b"010"; 0b"011"; 0b"100"; 0b"101"]).
Proof.
  intros ->. unfold categories_holding.
  change (0b"000") with 0. change (0b"001") with 1.
  change (0b"110") with 6. change (0b"111") with 7.
  change (0b"010") with 2. change (0b"011") with 3.
  change (0b"100") with 4. change (0b"101") with 5.
  cbn [In].
  classify fraction; cbn [holds Z.eqb Nat.add]; lia.
Qed.

Lemma sentinel_categories_exclusive_witness :
  let fraction := SPIRIX_UNDEF_GENERAL in
  let exponent := SPIRIX_AMBIGUOUS_EXPONENT in
  exponent = SPIRIX_AMBIGUOUS_EXPONENT
  /\ (categories_holding fraction exponent <= 1)%nat
  /\ (categories_holding fraction exponent = 1%nat <->
      In (fraction_tag fraction) [0b"000"; 0b"001"; 0b"110"; 0b"111"])
  /\ (categories_holding fraction exponent = 0%nat <->
      In (fraction_tag fraction) [0b"010"; 0b"011"; 0b"100"; 0b"101"]).
Proof.
  split; [reflexivity |].
  apply (sentinel_categories_exclusive SPIRIX_UNDEF_GENERAL
           SPIRIX_AMBIGUOUS_EXPONENT).
  reflexivity.
Defined.

(** ** Vanished fractions *)

(** C3, as stated, fails: the positive Vanished prefix under the sentinel
    exponent carries the tag [001], and [spirix_is_finite] answers 1 on it,
    not 0. *)
Lemma vanished_prefix_is_finite :
  let fraction := SPIRIX_VANISHED_POS_PREFIX in
  let exponent := SPIRIX_AMBIGUOUS_EXPONENT in
  vanished_tag fraction
  /\ spirix_is_finite fraction exponent = 1
  /\ ~ (spirix_is_finite fraction exponent = 0
        /\ spirix_is_undefined fraction exponent = 0).
Proof.
  split; [left; reflexivity |].
  split; [reflexivity |].
  intros [H _]. vm_compute in H. discriminate.
Qed.

(** C3, amended: for every fraction carrying a Vanished tag (top three bits
    001 or 110) paired with the sentinel exponent, [spirix_is_undefined]
    returns false, and so do [spirix_is_zero] and [spirix_is_infinity];
    [spirix_is_finite], which is the negation of those three under the
    sentinel exponent, returns true. *)
Theorem vanished_not_undefined_but_finite (fraction : Z) :
  vanished_tag fraction ->
  spirix_is_undefined fraction SPIRIX_AMBIGUOUS_EXPONENT = 0
  /\ spirix_is_zero fraction SPIRIX_AMBIGUOUS_EXPONENT = 0
  /\ spirix_is_infinity fraction SPIRIX_AMBIGUOUS_EXPONENT = 0
  /\ spirix_is_finite fraction SPIRIX_AMBIGUOUS_EXPONENT = 1.
Proof.
  unfold vanished_tag.
  change (0b"001") with 1. change (0b"110") with 6.
  intros Htag.
  classify fraction; repeat split; lia.
Qed.

Lemma vanished_not_undefined_but_finite_witness :
  let fraction := SPIRIX_VANISHED_NEG_PREFIX in
  vanished_tag fraction
  /\ spirix_is_undefined fraction SPIRIX_AMBIGUOUS_EXPONENT = 0
  /\ spirix_is_zero fraction SPIRIX_AMBIGUOUS_EXPONENT = 0
  /\ spirix_is_infinity fraction SPIRIX_AMBIGUOUS_EXPONENT = 0
  /\ spirix_is_finite fraction SPIRIX_AMBIGUOUS_EXPONENT = 1.
Proof.
  assert (Htag : vanished_tag SPIRIX_VANISHED_NEG_PREFIX) by (right; reflexivity).
  split; [exact Htag |].
  exact (vanished_not_undefined_but_finite SPIRIX_VANISHED_NEG_PREFIX Htag).
Defined.

(** ** Exponents other than the sentinel *)

(** C4: for every fraction and every exponent other than the sentinel,
    [spirix_is_finite] returns true whatever the fraction holds, and
    [spirix_is_zero], [spirix_is_infinity] and [spirix_is_undefined] all
    return false. *)
Theorem normal_exponent_is_finite (fraction exponent : Z) :
  exponent <> SPIRIX_AMBIGUOUS_EXPONENT ->
  spirix_is_finite fraction exponent = 1
  /\ spirix_is_zero fraction exponent = 0
  /\ spirix_is_infinity fraction exponent = 0
  /\ spirix_is_undefined fraction exponent = 0.
Proof.
  intros Hexp.
  classify fraction; repeat split; lia.
Qed.

Lemma normal_exponent_is_finite_witness :
  let fraction := SPIRIX_UNDEF_GENERAL in
  let exponent := 5 in
  exponent <> SPIRIX_AMBIGUOUS_EXPONENT
  /\ spirix_is_finite fraction exponent = 1
  /\ spirix_is_zero fraction exponent = 0
  /\ spirix_is_infinity fraction exponent = 0
  /\ spirix_is_undefined fraction exponent = 0.
Proof.
  assert (Hexp : 5 <> SPIRIX_AMBIGUOUS_EXPONENT) by (vm_compute; discriminate).
  split; [exact Hexp |].
  exact (normal_exponent_is_finite SPIRIX_UNDEF_GENERAL 5 Hexp).
Defined.

(** ** The catalogue of Undefined subtypes *)

(** C8: the twenty named Undefined-subtype literals are pairwise distinct,
    each differs from the Zero literal, the Infinity literal and the two
    Vanished prefixes, and each of them, paired with the sentinel exponent,
    satisfies [spirix_is_undefined] (and none of the other predicates). *)
Theorem undefined_catalog_sound :
  length undefined_catalog = 20%nat
  /\ NoDup undefined_catalog
  /\ Forall well_placed undefined_catalog.
Proof.
  split; [reflexivity |].
  split.
  - compute_done.
  - unfold undefined_catalog.
    repeat (constructor;
            [unfold well_placed; vm_compute; repeat split; discriminate |]).
    constructor.
Qed.

(** ** Memory after two stores *)

Lemma load_pair_stored (fraction exponent : loc) (f e : Z) (m : mem) :
  fraction <> exponent ->
  load_pair fraction exponent (<[exponent := e]> (<[fraction := f]> m)) = Some (f, e).
Proof.
  intros Hne. unfold load_pair.
  rewrite lookup_insert_ne by congruence.
  rewrite !lookup_insert_eq. reflexivity.
Qed.

Lemma stores_frame (p q l : loc) (f e : Z) (m : mem) :
  l <> p -> l <> q ->
  (<[q := e]> (<[p := f]> m)) !! l = m !! l.
Proof. intros Hp Hq. rewrite !lookup_insert_ne by congruence. reflexivity. Qed.

(** ** The constructors *)

(** The sign argument plays no part, whether or not the two pointers alias. *)
Lemma spirix_create_infinity_unfold (fraction exponent : loc) (sign : Z) (m : mem) :
  spirix_create_infinity fraction exponent sign m =
    <[exponent := SPIRIX_AMBIGUOUS_EXPONENT]> (<[fraction := SPIRIX_INFINITY_FRACTION]> m).
Proof. reflexivity. Qed.

(** C9: for every two values p1, p2 of the [positive] argument,
    [spirix_create_infinity] leaves identical memories: in both runs the
    fraction is SPIRIX_INFINITY_FRACTION and the exponent the sentinel, so
    the output does not depend on the sign argument. *)
Theorem create_infinity_ignores_sign
    (p1 p2 : Z) (fraction exponent : loc) (m : mem) :
  fraction <> exponent ->
  spirix_create_infinity fraction exponent p1 m
    = spirix_create_infinity fraction exponent p2 m
  /\ load_pair fraction exponent (spirix_create_infinity fraction exponent p1 m)
     = Some (SPIRIX_INFINITY_FRACTION, SPIRIX_AMBIGUOUS_EXPONENT)
  /\ load_pair fraction exponent (spirix_create_infinity fraction exponent p2 m)
     = Some (SPIRIX_INFINITY_FRACTION, SPIRIX_AMBIGUOUS_EXPONENT).
Proof.
  intros Hne. rewrite !spirix_create_infinity_unfold.
  split; [reflexivity |].
  split; apply load_pair_stored; exact Hne.
Qed.

Lemma create_infinity_ignores_sign_witness :
  let fraction := 1%positive in
  let exponent := 2%positive in
  let m : mem := ∅ in
  fraction <> exponent
  /\ spirix_create_infinity fraction exponent 1 m
     = spirix_create_infinity fraction exponent 0 m
  /\ load_pair fraction exponent (spirix_create_infinity fraction exponent 1 m)
     = Some (SPIRIX_INFINITY_FRACTION, SPIRIX_AMBIGUOUS_EXPONENT)
  /\ load_pair fraction exponent (spirix_create_infinity fraction exponent 0 m)
     = Some (SPIRIX_INFINITY_FRACTION, SPIRIX_AMBIGUOUS_EXPONENT).
Proof.
  assert (Hne : 1%positive <> 2%positive) by discriminate.
  split; [exact Hne |].
  exact (create_infinity_ignores_sign 1 0 1%positive 2%positive ∅ Hne).
Defined.

(** ** The division resolver, branch by branch *)

Section ResolverBranches.

Variable result_exponent : loc.
Variables a_frac a_exp b_frac b_exp : Z.
Variables result_frac result_exp : loc.

Abbreviation divide :=
  (spirix_gpu_safe_divide result_exponent a_frac a_exp b_frac b_exp
     result_frac result_exp).

Lemma safe_divide_branch_zero_zero :
  spirix_is_zero a_frac a_exp <> 0 ->
  spirix_is_zero b_frac b_exp <> 0 ->
  divide = spirix_create_undefined_zero_div_zero result_frac result_exp.
Proof.
  unfold spirix_gpu_safe_divide.
  rewrite !spirix_is_zero_spec, !spirix_is_infinity_spec.
  intros Ha Hb. repeat case_decide; c_cases.
Qed.

Lemma safe_divide_branch_inf_inf :
  spirix_is_infinity a_frac a_exp <> 0 ->
  spirix_is_infinity b_frac b_exp <> 0 ->
  divide = seq (assign result_frac SPIRIX_UNDEF_TRANSFINITE_DIV_TRANSFINITE)
               (assign result_exponent SPIRIX_AMBIGUOUS_EXPONENT).
Proof.
  unfold spirix_gpu_safe_divide.
  rewrite !spirix_is_zero_spec, !spirix_is_infinity_spec.
  intros Ha Hb. repeat case_decide; c_cases.
Qed.

Lemma safe_divide_branch_by_zero :
  spirix_is_zero a_frac a_exp = 0 ->
  spirix_is_zero b_frac b_exp <> 0 ->
  divide = spirix_create_infinity result_frac result_exp 1.
Proof.
  unfold spirix_gpu_safe_divide.
  rewrite !spirix_is_zero_spec, !spirix_is_infinity_spec.
  intros Ha Hb. repeat case_decide; c_cases.
Qed.

Lemma safe_divide_branch_zero_numerator :
  spirix_is_zero a_frac a_exp <> 0 ->
  spirix_is_zero b_frac b_exp = 0 ->
  divide = spirix_create_zero result_frac result_exp.
Proof.
  unfold spirix_gpu_safe_divide.
  rewrite !spirix_is_zero_spec, !spirix_is_infinity_spec.
  intros Ha Hb. repeat case_decide; c_cases.
Qed.

Lemma safe_divide_branch_defer :
  spirix_is_zero a_frac a_exp = 0 ->
  spirix_is_zero b_frac b_exp = 0 ->
  spirix_is_infinity a_frac a_exp = 0 \/ spirix_is_infinity b_frac b_exp = 0 ->
  divide = skip.
Proof.
  unfold spirix_gpu_safe_divide.
  rewrite !spirix_is_zero_spec, !spirix_is_infinity_spec.
  intros Ha Hb Hinf. repeat case_decide; c_cases.
Qed.

End ResolverBranches.

(** ** The division resolver on classified operands *)

(** C5: when both operands are classified Zero, [spirix_gpu_safe_divide]
    writes SPIRIX_UNDEF_NEGLIGIBLE_DIV_NEGLIGIBLE into the result fraction
    and the sentinel into the result exponent, and the pair so written is
    classified Undefined. *)
Theorem safe_divide_zero_by_zero
    (result_exponent : loc) (a_frac a_exp b_frac b_exp : Z)
    (result_frac result_exp : loc) (m : mem) :
  spirix_is_zero a_frac a_exp <> 0 ->
  spirix_is_zero b_frac b_exp <> 0 ->
  result_frac <> result_exp ->
  let m' := spirix_gpu_safe_divide result_exponent a_frac a_exp b_frac b_exp
              result_frac result_exp m in
  m' = <[result_exp := SPIRIX_AMBIGUOUS_EXPONENT]>
         (<[result_frac := SPIRIX_UNDEF_NEGLIGIBLE_DIV_NEGLIGIBLE]> m)
  /\ load_pair result_frac result_exp m'
     = Some (SPIRIX_UNDEF_NEGLIGIBLE_DIV_NEGLIGIBLE, SPIRIX_AMBIGUOUS_EXPONENT)
  /\ spirix_is_undefined SPIRIX_UNDEF_NEGLIGIBLE_DIV_NEGLIGIBLE
       SPIRIX_AMBIGUOUS_EXPONENT = 1
  /\ spirix_is_finite SPIRIX_UNDEF_NEGLIGIBLE_DIV_NEGLIGIBLE
       SPIRIX_AMBIGUOUS_EXPONENT = 0.
Proof.
  intros Ha Hb Hne m'. subst m'.
  rewrite (safe_divide_branch_zero_zero _ _ _ _ _ _ _ Ha Hb).
  split; [reflexivity |].
  split; [apply load_pair_stored; exact Hne |].
  split; reflexivity.
Qed.

Lemma safe_divide_zero_by_zero_witness :
  let zero := (SPIRIX_ZERO_FRACTION, SPIRIX_AMBIGUOUS_EXPONENT) in
  let m' := spirix_gpu_safe_divide 3%positive zero.1 zero.2 zero.1 zero.2
              1%positive 2%positive ∅ in
  spirix_is_zero zero.1 zero.2 <> 0
  /\ 1%positive <> 2%positive
  /\ load_pair 1%positive 2%positive m'
     = Some (SPIRIX_UNDEF_NEGLIGIBLE_DIV_NEGLIGIBLE, SPIRIX_AMBIGUOUS_EXPONENT).
Proof.
  assert (Hz : spirix_is_zero SPIRIX_ZERO_FRACTION SPIRIX_AMBIGUOUS_EXPONENT <> 0)
    by (vm_compute; discriminate).
  assert (Hne : 1%positive <> 2%positive) by discriminate.
  split; [exact Hz |]. split; [exact Hne |].
  exact (proj1 (proj2 (safe_divide_zero_by_zero 3%positive
                         SPIRIX_ZERO_FRACTION SPIRIX_AMBIGUOUS_EXPONENT
                         SPIRIX_ZERO_FRACTION SPIRIX_AMBIGUOUS_EXPONENT
                         1%positive 2%positive ∅ Hz Hz Hne))).
Defined.

(** C6: when the denominator is classified Zero and the numerator is not,
    [spirix_gpu_safe_divide] returns Infinity: it writes
    SPIRIX_INFINITY_FRACTION into the result fraction and the sentinel into
    the result exponent. *)
Theorem safe_divide_by_zero
    (result_exponent : loc) (a_frac a_exp b_frac b_exp : Z)
    (result_frac result_exp : loc) (m : mem) :
  spirix_is_zero b_frac b_exp <> 0 ->
  spirix_is_zero a_frac a_exp = 0 ->
  result_frac <> result_exp ->
  let m' := spirix_gpu_safe_divide result_exponent a_frac a_exp b_frac b_exp
              result_frac result_exp m in
  m' = <[result_exp := SPIRIX_AMBIGUOUS_EXPONENT]>
         (<[result_frac := SPIRIX_INFINITY_FRACTION]> m)
  /\ load_pair result_frac result_exp m'
     = Some (SPIRIX_INFINITY_FRACTION, SPIRIX_AMBIGUOUS_EXPONENT)
  /\ spirix_is_infinity SPIRIX_INFINITY_FRACTION SPIRIX_AMBIGUOUS_EXPONENT = 1.
Proof.
  intros Hb Ha Hne m'. subst m'.
  rewrite (safe_divide_branch_by_zero _ _ _ _ _ _ _ Ha Hb).
  split; [reflexivity |].
  split; [apply load_pair_stored; exact Hne | reflexivity].
Qed.

Lemma safe_divide_by_zero_witness :
  let m' := spirix_gpu_safe_divide 3%positive 5 0
              SPIRIX_ZERO_FRACTION SPIRIX_AMBIGUOUS_EXPONENT
              1%positive 2%positive ∅ in
  spirix_is_zero SPIRIX_ZERO_FRACTION SPIRIX_AMBIGUOUS_EXPONENT <> 0
  /\ spirix_is_zero 5 0 = 0
  /\ 1%positive <> 2%positive
  /\ load_pair 1%positive 2%positive m'
     = Some (SPIRIX_INFINITY_FRACTION, SPIRIX_AMBIGUOUS_EXPONENT).
Proof.
  assert (Hz : spirix_is_zero SPIRIX_ZERO_FRACTION SPIRIX_AMBIGUOUS_EXPONENT <> 0)
    by (vm_compute; discriminate).
  assert (Ha : spirix_is_zero 5 0 = 0) by reflexivity.
  assert (Hne : 1%positive <> 2%positive) by discriminate.
  split; [exact Hz |]. split; [exact Ha |]. split; [exact Hne |].
  exact (proj1 (proj2 (safe_divide_by_zero 3%positive 5 0
                         SPIRIX_ZERO_FRACTION SPIRIX_AMBIGUOUS_EXPONENT
                         1%positive 2%positive ∅ Hz Ha Hne))).
Defined.

(** C10: when the numerator satisfies [spirix_is_undefined] and the
    denominator is classified Zero, [spirix_gpu_safe_divide] returns the
    canonical Infinity (Infinity fraction, sentinel exponent); nothing of the
    numerator's Undefined subtype reaches the result. *)
Theorem safe_divide_undefined_by_zero
    (result_exponent : loc) (a_frac a_exp b_frac b_exp : Z)
    (result_frac result_exp : loc) (m : mem) :
  spirix_is_undefined a_frac a_exp <> 0 ->
  spirix_is_zero b_frac b_exp <> 0 ->
  result_frac <> result_exp ->
  let m' := spirix_gpu_safe_divide result_exponent a_frac a_exp b_frac b_exp
              result_frac result_exp m in
  m' = <[result_exp := SPIRIX_AMBIGUOUS_EXPONENT]>
         (<[result_frac := SPIRIX_INFINITY_FRACTION]> m)
  /\ load_pair result_frac result_exp m'
     = Some (SPIRIX_INFINITY_FRACTION, SPIRIX_AMBIGUOUS_EXPONENT)
  /\ spirix_is_undefined SPIRIX_INFINITY_FRACTION SPIRIX_AMBIGUOUS_EXPONENT = 0.
Proof.
  intros Ha Hb Hne m'. subst m'.
  assert (Hz : spirix_is_zero a_frac a_exp = 0).
  { revert Ha. classify a_frac; lia. }
  rewrite (safe_divide_branch_by_zero _ _ _ _ _ _ _ Hz Hb).
  split; [reflexivity |].
  split; [apply load_pair_stored; exact Hne | reflexivity].
Qed.

Lemma safe_divide_undefined_by_zero_witness :
  let m' := spirix_gpu_safe_divide 3%positive
              SPIRIX_UNDEF_NEGLIGIBLE_DIV_NEGLIGIBLE SPIRIX_AMBIGUOUS_EXPONENT
              SPIRIX_ZERO_FRACTION SPIRIX_AMBIGUOUS_EXPONENT
              1%positive 2%positive ∅ in
  spirix_is_undefined SPIRIX_UNDEF_NEGLIGIBLE_DIV_NEGLIGIBLE
    SPIRIX_AMBIGUOUS_EXPONENT <> 0
  /\ spirix_is_zero SPIRIX_ZERO_FRACTION SPIRIX_AMBIGUOUS_EXPONENT <> 0
  /\ 1%positive <> 2%positive
  /\ load_pair 1%positive 2%positive m'
     = Some (SPIRIX_INFINITY_FRACTION, SPIRIX_AMBIGUOUS_EXPONENT).
Proof.
  assert (Hu : spirix_is_undefined SPIRIX_UNDEF_NEGLIGIBLE_DIV_NEGLIGIBLE
                 SPIRIX_AMBIGUOUS_EXPONENT <> 0) by (vm_compute; discriminate).
  assert (Hz : spirix_is_zero SPIRIX_ZERO_FRACTION SPIRIX_AMBIGUOUS_EXPONENT <> 0)
    by (vm_compute; discriminate).
  assert (Hne : 1%positive <> 2%positive) by discriminate.
  split; [exact Hu |]. split; [exact Hz |]. split; [exact Hne |].
  exact (proj1 (proj2 (safe_divide_undefined_by_zero 3%positive
                         SPIRIX_UNDEF_NEGLIGIBLE_DIV_NEGLIGIBLE
                         SPIRIX_AMBIGUOUS_EXPONENT
                         SPIRIX_ZERO_FRACTION SPIRIX_AMBIGUOUS_EXPONENT
                         1%positive 2%positive ∅ Hu Hz Hne))).
Defined.

(** A finite operand raises neither the zero flag nor the infinity flag. *)
Lemma finite_flags (fraction exponent : Z) :
  spirix_is_finite fraction exponent <> 0 ->
  spirix_is_zero fraction exponent = 0 /\ spirix_is_infinity fraction exponent = 0.
Proof. intros Hfin. revert Hfin. classify fraction; lia. Qed.

(** Operands with ordinary exponents reach the end of the resolver. *)
Lemma safe_divide_normal_exponents
    (result_exponent : loc) (a_frac a_exp b_frac b_exp : Z)
    (result_frac result_exp : loc) (m : mem) :
  a_exp <> SPIRIX_AMBIGUOUS_EXPONENT ->
  b_exp <> SPIRIX_AMBIGUOUS_EXPONENT ->
  spirix_gpu_safe_divide result_exponent a_frac a_exp b_frac b_exp
    result_frac result_exp m = m.
Proof.
  intros Ha Hb.
  rewrite safe_divide_branch_defer; [reflexivity | | |].
  - revert Ha. classify a_frac; lia.
  - revert Hb. classify b_frac; lia.
  - left. revert Ha. classify a_frac; lia.
Qed.

(** C7: when both operands are classified finite, [spirix_gpu_safe_divide]
    takes none of its special-case branches and writes nothing: memory, and
    with it [*result_frac] and [*result_exp], is left as it was, whatever the
    two result pointers are. The operands are passed by value and cannot be
    changed. *)
Theorem safe_divide_finite_operands
    (result_exponent : loc) (a_frac a_exp b_frac b_exp : Z)
    (result_frac result_exp : loc) (m : mem) :
  spirix_is_finite a_frac a_exp <> 0 ->
  spirix_is_finite b_frac b_exp <> 0 ->
  spirix_gpu_safe_divide result_exponent a_frac a_exp b_frac b_exp
    result_frac result_exp = skip
  /\ spirix_gpu_safe_divide result_exponent a_frac a_exp b_frac b_exp
       result_frac result_exp m = m.
Proof.
  intros Ha Hb.
  destruct (finite_flags _ _ Ha) as [Haz Hai].
  destruct (finite_flags _ _ Hb) as [Hbz Hbi].
  rewrite safe_divide_branch_defer by (try assumption; left; assumption).
  split; reflexivity.
Qed.

Lemma safe_divide_finite_operands_witness :
  let m : mem := <[2%positive := 7]> (<[1%positive := 9]> ∅) in
  spirix_is_finite 5 0 <> 0
  /\ spirix_is_finite 3 0 <> 0
  /\ spirix_gpu_safe_divide 3%positive 5 0 3 0 1%positive 2%positive m = m.
Proof.
  assert (Ha : spirix_is_finite 5 0 <> 0) by (vm_compute; discriminate).
  assert (Hb : spirix_is_finite 3 0 <> 0) by (vm_compute; discriminate).
  split; [exact Ha |]. split; [exact Hb |].
  exact (proj2 (safe_divide_finite_operands 3%positive 5 0 3 0
                  1%positive 2%positive _ Ha Hb)).
Defined.

(** ** Infinity divided by Infinity *)

(** What the infinity-by-infinity branch does to memory: the fraction
    literal goes to [*result_frac], the sentinel goes to [*result_exponent],
    and [*result_exp] keeps whatever it held. *)
Lemma safe_divide_infinity_by_infinity_stores
    (result_exponent : loc) (a_frac a_exp b_frac b_exp : Z)
    (result_frac result_exp : loc) (m : mem) :
  spirix_is_infinity a_frac a_exp <> 0 ->
  spirix_is_infinity b_frac b_exp <> 0 ->
  result_frac <> result_exp ->
  result_exponent <> result_exp ->
  let m' := spirix_gpu_safe_divide result_exponent a_frac a_exp b_frac b_exp
              result_frac result_exp m in
  m' = <[result_exponent := SPIRIX_AMBIGUOUS_EXPONENT]>
         (<[result_frac := SPIRIX_UNDEF_TRANSFINITE_DIV_TRANSFINITE]> m)
  /\ m' !! result_exp = m !! result_exp.
Proof.
  intros Ha Hb Hne Hfree m'. subst m'.
  rewrite (safe_divide_branch_inf_inf _ _ _ _ _ _ _ Ha Hb).
  split; [reflexivity |].
  unfold seq, assign. apply stores_frame; congruence.
Qed.

(** C1 does not hold of the code. Dividing Infinity by Infinity with result
    variables [rf] and [re] both holding 0, and [result_exponent] naming a
    third object: the branch stores SPIRIX_UNDEF_TRANSFINITE_DIV_TRANSFINITE
    into [rf] and the sentinel into the third object, so [re] still holds 0
    and the returned pair is classified finite, not Undefined. *)
Theorem safe_divide_infinity_by_infinity_exponent_not_written :
  let rf := 1%positive in
  let re := 2%positive in
  let result_exponent := 3%positive in
  let m : mem := <[re := 0]> (<[rf := 0]> ∅) in
  let m' := spirix_gpu_safe_divide result_exponent
              SPIRIX_INFINITY_FRACTION SPIRIX_AMBIGUOUS_EXPONENT
              SPIRIX_INFINITY_FRACTION SPIRIX_AMBIGUOUS_EXPONENT rf re m in
  spirix_is_infinity SPIRIX_INFINITY_FRACTION SPIRIX_AMBIGUOUS_EXPONENT = 1
  /\ load_pair rf re m' = Some (SPIRIX_UNDEF_TRANSFINITE_DIV_TRANSFINITE, 0)
  /\ m' !! re = m !! re
  /\ m' !! result_exponent = Some SPIRIX_AMBIGUOUS_EXPONENT
  /\ spirix_is_undefined SPIRIX_UNDEF_TRANSFINITE_DIV_TRANSFINITE 0 = 0
  /\ spirix_is_finite SPIRIX_UNDEF_TRANSFINITE_DIV_TRANSFINITE 0 = 1.
Proof. vm_compute. repeat split. Qed.

(** ** The remaining row of the decision table, and the spec's test vectors *)

(** A Zero numerator over a denominator that is not Zero gives Zero. *)
Lemma safe_divide_zero_numerator
    (result_exponent : loc) (a_frac a_exp b_frac b_exp : Z)
    (result_frac result_exp : loc) (m : mem) :
  spirix_is_zero a_frac a_exp <> 0 ->
  spirix_is_zero b_frac b_exp = 0 ->
  result_frac <> result_exp ->
  load_pair result_frac result_exp
    (spirix_gpu_safe_divide result_exponent a_frac a_exp b_frac b_exp
       result_frac result_exp m)
  = Some (SPIRIX_ZERO_FRACTION, SPIRIX_AMBIGUOUS_EXPONENT).
Proof.
  intros Ha Hb Hne.
  rewrite (safe_divide_branch_zero_numerator _ _ _ _ _ _ _ Ha Hb).
  apply load_pair_stored. exact Hne.
Qed.

Example divide_zero_by_five :
  load_pair 1%positive 2%positive
    (spirix_gpu_safe_divide 3%positive
       SPIRIX_ZERO_FRACTION SPIRIX_AMBIGUOUS_EXPONENT 5 0
       1%positive 2%positive ∅)
  = Some (SPIRIX_ZERO_FRACTION, SPIRIX_AMBIGUOUS_EXPONENT).
Proof. reflexivity. Qed.

Example divide_five_by_three_writes_nothing :
  spirix_gpu_safe_divide 3%positive 5 0 3 0 1%positive 2%positive ∅ = ∅.
Proof. reflexivity. Qed.

Example create_zero_round_trip :
  let m := spirix_create_zero 1%positive 2%positive ∅ in
  load_pair 1%positive 2%positive m
    = Some (SPIRIX_ZERO_FRACTION, SPIRIX_AMBIGUOUS_EXPONENT)
  /\ spirix_is_zero SPIRIX_ZERO_FRACTION SPIRIX_AMBIGUOUS_EXPONENT = 1.
Proof. split; reflexivity. Qed.

Example create_undefined_round_trip :
  let m := spirix_create_undefined 1%positive 2%positive ∅ in
  load_pair 1%positive 2%positive m
    = Some (SPIRIX_UNDEF_GENERAL, SPIRIX_AMBIGUOUS_EXPONENT)
  /\ spirix_is_undefined SPIRIX_UNDEF_GENERAL SPIRIX_AMBIGUOUS_EXPONENT = 1.
Proof. split; reflexivity. Qed.

(** * Further properties of the header *)

(** ** The header's four predicates on arbitrary pairs *)

(** X1: every (fraction, exponent) pair satisfies exactly one of
    [spirix_is_zero], [spirix_is_infinity], [spirix_is_undefined] and
    [spirix_is_finite], and each of the four answers is 0 or 1. *)
Theorem header_predicates_partition (fraction exponent : Z) :
  predicates_holding fraction exponent = 1%nat
  /\ Forall (fun r => r = 0 \/ r = 1)
       [ spirix_is_zero fraction exponent;
         spirix_is_infinity fraction exponent;
         spirix_is_undefined fraction exponent;
         spirix_is_finite fraction exponent ].
Proof.
  unfold predicates_holding.
  split.
  - classify fraction; cbn [holds Z.eqb Nat.add]; lia.
  - repeat (constructor; [classify fraction; lia |]). constructor.
Qed.

(** The tag is the three-bit field above bit 13. *)
Lemma fraction_tag_land (fraction : Z) :
  fraction_tag fraction = Z.land (Z.shiftr fraction 13) (Z.ones 3).
Proof.
  rewrite fraction_tag_div, Z.land_ones, Z.shiftr_div_pow2 by lia.
  change (2 ^ 13) with 8192. change (2 ^ 3) with 8.
  Z.div_mod_to_equations. lia.
Qed.

Lemma fraction_tag_testbit (fraction : Z) :
  Z.testbit (fraction_tag fraction) 0 = Z.testbit fraction 13
  /\ Z.testbit (fraction_tag fraction) 1 = Z.testbit fraction 14
  /\ Z.testbit (fraction_tag fraction) 2 = Z.testbit fraction 15.
Proof.
  rewrite fraction_tag_land.
  repeat split;
    rewrite Z.land_spec, Z.shiftr_spec, Z.ones_spec_low by lia;
    rewrite andb_true_r; reflexivity.
Qed.

(** A number in [0, 7] is 0 or 7 exactly when its three bits agree. *)
Lemma three_bits_agree (t : Z) :
  0 <= t <= 7 ->
  (t = 0 \/ t = 7) <->
  (Z.testbit t 2 = Z.testbit t 1 /\ Z.testbit t 1 = Z.testbit t 0).
Proof.
  intros Ht.
  assert (Hcases : t = 0 \/ t = 1 \/ t = 2 \/ t = 3 \/ t = 4 \/ t = 5
                   \/ t = 6 \/ t = 7) by lia.
  destruct Hcases as [-> | [-> | [-> | [-> | [-> | [-> | [-> | ->]]]]]]];
    cbn; split; intros H; try lia; try (split; reflexivity);
    destruct H; discriminate.
Qed.

(** X2: [spirix_is_undefined] answers 1 exactly when the exponent is the
    sentinel, bits 15, 14 and 13 of the fraction are all equal, and the
    fraction is neither the Zero nor the Infinity literal; otherwise it
    answers 0. The cast to [uint16_t] before the shift makes a negative
    fraction yield its own top bits. *)
Theorem is_undefined_bits (fraction exponent : Z) :
  (spirix_is_undefined fraction exponent = 1 <->
     exponent = SPIRIX_AMBIGUOUS_EXPONENT
     /\ Z.testbit fraction 15 = Z.testbit fraction 14
     /\ Z.testbit fraction 14 = Z.testbit fraction 13
     /\ fraction <> SPIRIX_ZERO_FRACTION
     /\ fraction <> SPIRIX_INFINITY_FRACTION)
  /\ (spirix_is_undefined fraction exponent = 0
      \/ spirix_is_undefined fraction exponent = 1).
Proof.
  destruct (fraction_tag_testbit fraction) as (H0 & H1 & H2).
  pose proof (three_bits_agree (fraction_tag fraction)
                (fraction_tag_range fraction)) as Hbits.
  rewrite H0, H1, H2 in Hbits.
  rewrite spirix_is_undefined_spec. literals.
  case_decide as Hd; split; try (right; reflexivity); try (left; reflexivity).
  - split; [intros _ | reflexivity].
    destruct Hd as (He & Ht & Hz & Hi).
    apply Hbits in Ht. destruct Ht. repeat split; assumption.
  - split; [discriminate |].
    intros (He & Hb1 & Hb2 & Hz & Hi). exfalso. apply Hd.
    repeat split; try assumption. apply Hbits. split; assumption.
Qed.

(** The two Undefined tags as ranges of a 16-bit fraction. *)
Lemma fraction_tag_ranges (fraction : Z) :
  int16 fraction ->
  (fraction_tag fraction = 0 <-> 0 <= fraction <= 8191)
  /\ (fraction_tag fraction = 7 <-> -8192 <= fraction <= -1).
Proof.
  unfold int16. intros Hrange. rewrite fraction_tag_div.
  Z.div_mod_to_equations. lia.
Qed.

(** X3: under the sentinel exponent a 16-bit fraction is classified by its
    value alone: Zero at 0, Infinity at -1, Undefined on [1, 8191] and on
    [-8192, -2] (so on 16382 bit patterns, payload bits included, not only
    on the catalogued literals), and finite on the remaining fractions, those
    of [8192, 32767] and [-32768, -8193]. *)
Theorem sentinel_classification_by_range (fraction : Z) :
  int16 fraction ->
  (spirix_is_zero fraction SPIRIX_AMBIGUOUS_EXPONENT = 1 <-> fraction = 0)
  /\ (spirix_is_infinity fraction SPIRIX_AMBIGUOUS_EXPONENT = 1 <-> fraction = -1)
  /\ (spirix_is_undefined fraction SPIRIX_AMBIGUOUS_EXPONENT = 1 <->
      1 <= fraction <= 8191 \/ -8192 <= fraction <= -2)
  /\ (spirix_is_finite fraction SPIRIX_AMBIGUOUS_EXPONENT = 1 <->
      8192 <= fraction <= 32767 \/ -32768 <= fraction <= -8193).
Proof.
  intros Hrange.
  destruct (fraction_tag_ranges fraction Hrange) as [Hlow Hhigh].
  unfold int16 in Hrange.
  classify fraction; repeat split; intros; try lia; try discriminate.
Qed.

Lemma sentinel_classification_by_range_witness :
  let fraction := 0b"0001011000000001" in
  int16 fraction
  /\ (spirix_is_undefined fraction SPIRIX_AMBIGUOUS_EXPONENT = 1 <->
      1 <= fraction <= 8191 \/ -8192 <= fraction <= -2).
Proof.
  assert (Hrange : int16 0b"0001011000000001")
    by (vm_compute; split; discriminate).
  split; [exact Hrange |].
  exact (proj1 (proj2 (proj2
           (sentinel_classification_by_range 0b"0001011000000001" Hrange)))).
Defined.

(** ** The creation helpers on arbitrary memory *)

(** Two stores, then two stores to the same cells: the later pair wins,
    whether or not the two cells are one. *)
Lemma stores_overwrite (p q : loc) (f e f' e' : Z) (m : mem) :
  <[q := e']> (<[p := f']> (<[q := e]> (<[p := f]> m)))
  = <[q := e']> (<[p := f']> m).
Proof.
  apply map_eq. intros l.
  rewrite !lookup_insert. repeat case_decide; congruence.
Qed.

Lemma stores_delete (p q : loc) (f e : Z) (m : mem) :
  delete q (delete p (<[q := e]> (<[p := f]> m))) = delete q (delete p m).
Proof.
  apply map_eq. intros l.
  rewrite !lookup_delete, !lookup_insert. repeat case_decide; congruence.
Qed.

(** X4: read back through two distinct pointers, the output of each creation
    helper carries the sentinel exponent and is classified in the category
    the helper is named after and in no other: Zero for
    [spirix_create_zero], Infinity for [spirix_create_infinity] at any sign,
    Undefined for the four Undefined helpers, whose four fractions are
    pairwise different. *)
Theorem creation_helpers_round_trip
    (fraction exponent : loc) (sign : Z) (m : mem) :
  fraction <> exponent ->
  reads_as fraction exponent (spirix_create_zero fraction exponent m) 1 0 0 0
  /\ reads_as fraction exponent
       (spirix_create_infinity fraction exponent sign m) 0 1 0 0
  /\ Forall (fun create => reads_as fraction exponent
                             (create fraction exponent m) 0 0 1 0)
       [ spirix_create_undefined;
         spirix_create_undefined_zero_div_zero;
         spirix_create_undefined_inf_minus_inf;
         spirix_create_undefined_inf_times_zero ]
  /\ NoDup [ spirix_create_undefined fraction exponent m !! fraction;
             spirix_create_undefined_zero_div_zero fraction exponent m !! fraction;
             spirix_create_undefined_inf_minus_inf fraction exponent m !! fraction;
             spirix_create_undefined_inf_times_zero fraction exponent m !! fraction ].
Proof.
  intros Hne.
  assert (Hread : forall f z i u fin,
             spirix_is_zero f SPIRIX_AMBIGUOUS_EXPONENT = z ->
             spirix_is_infinity f SPIRIX_AMBIGUOUS_EXPONENT = i ->
             spirix_is_undefined f SPIRIX_AMBIGUOUS_EXPONENT = u ->
             spirix_is_finite f SPIRIX_AMBIGUOUS_EXPONENT = fin ->
             reads_as fraction exponent
               (<[exponent := SPIRIX_AMBIGUOUS_EXPONENT]> (<[fraction := f]> m))
               z i u fin).
  { intros f z i u fin Hz Hi Hu Hfin.
    exists f, SPIRIX_AMBIGUOUS_EXPONENT.
    split; [apply load_pair_stored; exact Hne |].
    repeat split; assumption. }
  split; [apply Hread; reflexivity |].
  split; [apply Hread; reflexivity |].
  split.
  - repeat (constructor; [apply Hread; reflexivity |]). constructor.
  - unfold spirix_create_undefined, spirix_create_undefined_zero_div_zero,
      spirix_create_undefined_inf_minus_inf,
      spirix_create_undefined_inf_times_zero, seq, assign.
    rewrite !lookup_insert.
    repeat case_decide; try congruence.
    compute_done.
Qed.

Lemma creation_helpers_round_trip_witness :
  1%positive <> 2%positive
  /\ reads_as 1%positive 2%positive
       (spirix_create_zero 1%positive 2%positive ∅) 1 0 0 0.
Proof.
  assert (Hne : 1%positive <> 2%positive) by discriminate.
  split; [exact Hne |].
  exact (proj1 (creation_helpers_round_trip 1%positive 2%positive 1 ∅ Hne)).
Defined.

(** X5: every creation helper leaves the sentinel in the exponent cell and
    changes no cell other than the two it is given; this holds for any two
    pointers, equal ones included. *)
Theorem creation_helpers_frame
    (fraction exponent : loc) (sign : Z) (m : mem) :
  Forall (fun create =>
            create fraction exponent m !! exponent
              = Some SPIRIX_AMBIGUOUS_EXPONENT
            /\ delete exponent (delete fraction (create fraction exponent m))
               = delete exponent (delete fraction m))
    (creation_helpers sign).
Proof.
  unfold creation_helpers.
  repeat (constructor;
          [split; [apply lookup_insert_eq | apply stores_delete] |]).
  constructor.
Qed.

(** X6: a creation helper run after another on the same two pointers leaves
    what it would have left on its own: nothing of the earlier value
    survives, for any two pointers, equal ones included. *)
Theorem creation_helpers_overwrite
    (fraction exponent : loc) (sign sign' : Z) (m : mem) :
  Forall (fun first =>
    Forall (fun second =>
              second fraction exponent (first fraction exponent m)
              = second fraction exponent m)
      (creation_helpers sign'))
    (creation_helpers sign).
Proof.
  unfold creation_helpers.
  repeat (constructor;
          [repeat (constructor; [apply stores_overwrite |]); constructor |]).
  constructor.
Qed.

(** ** The division resolver on arbitrary operands *)

(** X7: when the numerator is classified Zero and the denominator is not
    (an Infinity, an Undefined or a finite denominator alike), the resolver
    writes the Zero fraction and the sentinel exponent, and the pair read
    back is classified Zero and nothing else. *)
Theorem safe_divide_zero_numerator_is_zero
    (result_exponent : loc) (a_frac a_exp b_frac b_exp : Z)
    (result_frac result_exp : loc) (m : mem) :
  spirix_is_zero a_frac a_exp <> 0 ->
  spirix_is_zero b_frac b_exp = 0 ->
  result_frac <> result_exp ->
  let m' := spirix_gpu_safe_divide result_exponent a_frac a_exp b_frac b_exp
              result_frac result_exp m in
  m' = <[result_exp := SPIRIX_AMBIGUOUS_EXPONENT]>
         (<[result_frac := SPIRIX_ZERO_FRACTION]> m)
  /\ reads_as result_frac result_exp m' 1 0 0 0.
Proof.
  intros Ha Hb Hne m'. subst m'.
  rewrite (safe_divide_branch_zero_numerator _ _ _ _ _ _ _ Ha Hb).
  split; [reflexivity |].
  exists SPIRIX_ZERO_FRACTION, SPIRIX_AMBIGUOUS_EXPONENT.
  split; [apply load_pair_stored; exact Hne |].
  repeat split.
Qed.

Lemma safe_divide_zero_numerator_is_zero_witness :
  let m' := spirix_gpu_safe_divide 3%positive
              SPIRIX_ZERO_FRACTION SPIRIX_AMBIGUOUS_EXPONENT
              SPIRIX_INFINITY_FRACTION SPIRIX_AMBIGUOUS_EXPONENT
              1%positive 2%positive ∅ in
  spirix_is_zero SPIRIX_ZERO_FRACTION SPIRIX_AMBIGUOUS_EXPONENT <> 0
  /\ spirix_is_zero SPIRIX_INFINITY_FRACTION SPIRIX_AMBIGUOUS_EXPONENT = 0
  /\ 1%positive <> 2%positive
  /\ reads_as 1%positive 2%positive m' 1 0 0 0.
Proof.
  assert (Ha : spirix_is_zero SPIRIX_ZERO_FRACTION SPIRIX_AMBIGUOUS_EXPONENT <> 0)
    by (vm_compute; discriminate).
  assert (Hb : spirix_is_zero SPIRIX_INFINITY_FRACTION
                 SPIRIX_AMBIGUOUS_EXPONENT = 0) by reflexivity.
  assert (Hne : 1%positive <> 2%positive) by discriminate.
  split; [exact Ha |]. split; [exact Hb |]. split; [exact Hne |].
  exact (proj2 (safe_divide_zero_numerator_is_zero 3%positive
                  SPIRIX_ZERO_FRACTION SPIRIX_AMBIGUOUS_EXPONENT
                  SPIRIX_INFINITY_FRACTION SPIRIX_AMBIGUOUS_EXPONENT
                  1%positive 2%positive ∅ Ha Hb Hne)).
Defined.

(** The resolver is one of five statements, chosen by the four flags. *)
Lemma safe_divide_cases
    (result_exponent : loc) (a_frac a_exp b_frac b_exp : Z)
    (result_frac result_exp : loc) :
  let divide := spirix_gpu_safe_divide result_exponent a_frac a_exp
                  b_frac b_exp result_frac result_exp in
  (spirix_is_zero a_frac a_exp = 1 /\ spirix_is_zero b_frac b_exp = 1
   /\ divide = spirix_create_undefined_zero_div_zero result_frac result_exp)
  \/ (spirix_is_infinity a_frac a_exp = 1 /\ spirix_is_infinity b_frac b_exp = 1
      /\ divide = seq (assign result_frac SPIRIX_UNDEF_TRANSFINITE_DIV_TRANSFINITE)
                      (assign result_exponent SPIRIX_AMBIGUOUS_EXPONENT))
  \/ (spirix_is_zero a_frac a_exp = 0 /\ spirix_is_zero b_frac b_exp = 1
      /\ divide = spirix_create_infinity result_frac result_exp 1)
  \/ (spirix_is_zero a_frac a_exp = 1 /\ spirix_is_zero b_frac b_exp = 0
      /\ divide = spirix_create_zero result_frac result_exp)
  \/ (spirix_is_zero a_frac a_exp = 0 /\ spirix_is_zero b_frac b_exp = 0
      /\ (spirix_is_infinity a_frac a_exp = 0
          \/ spirix_is_infinity b_frac b_exp = 0)
      /\ divide = skip).
Proof.
  intros divide. subst divide. unfold spirix_gpu_safe_divide.
  rewrite !spirix_is_zero_spec, !spirix_is_infinity_spec.
  repeat case_decide; c_cases; intuition (try reflexivity; try lia).
Qed.

(** X8: the resolver changes no cell other than [*result_frac],
    [*result_exp] and the cell named [result_exponent]; and unless both
    operands are Infinity it changes no cell other than [*result_frac] and
    [*result_exp]. *)
Theorem safe_divide_frame
    (result_exponent : loc) (a_frac a_exp b_frac b_exp : Z)
    (result_frac result_exp : loc) (m : mem) :
  let m' := spirix_gpu_safe_divide result_exponent a_frac a_exp b_frac b_exp
              result_frac result_exp m in
  delete result_exponent (delete result_exp (delete result_frac m'))
    = delete result_exponent (delete result_exp (delete result_frac m))
  /\ ((spirix_is_infinity a_frac a_exp = 1 /\ spirix_is_infinity b_frac b_exp = 1)
      \/ delete result_exp (delete result_frac m')
         = delete result_exp (delete result_frac m)).
Proof.
  intros m'. subst m'.
  destruct (safe_divide_cases result_exponent a_frac a_exp b_frac b_exp
              result_frac result_exp)
    as [(_ & _ & ->) | [(Ha & Hb & ->) | [(_ & _ & ->) | [(_ & _ & ->)
       | (_ & _ & _ & ->)]]]].
  - split; [| right]; [f_equal |]; apply stores_delete.
  - split; [| left; split; assumption].
    unfold seq, assign. apply map_eq. intros l.
    rewrite !lookup_delete, !lookup_insert. repeat case_decide; congruence.
  - split; [| right]; [f_equal |]; apply stores_delete.
  - split; [| right]; [f_equal |]; apply stores_delete.
  - split; [| right]; reflexivity.
Qed.

(** X9: the resolver leaves every memory untouched exactly when neither
    operand is classified Zero and the operands are not both classified
    Infinity. So Infinity over a finite value, a finite value over Infinity,
    and any Undefined operand beside a non-Zero one all pass through without
    a write. *)
Theorem safe_divide_defers_iff
    (result_exponent : loc) (a_frac a_exp b_frac b_exp : Z)
    (result_frac result_exp : loc) :
  (forall m : mem,
     spirix_gpu_safe_divide result_exponent a_frac a_exp b_frac b_exp
       result_frac result_exp m = m)
  <->
  (spirix_is_zero a_frac a_exp = 0
   /\ spirix_is_zero b_frac b_exp = 0
   /\ (spirix_is_infinity a_frac a_exp = 0
       \/ spirix_is_infinity b_frac b_exp = 0)).
Proof.
  split.
  - intros Hsame. specialize (Hsame ∅).
    destruct (safe_divide_cases result_exponent a_frac a_exp b_frac b_exp
                result_frac result_exp)
      as [(_ & _ & Hd) | [(_ & _ & Hd) | [(_ & _ & Hd) | [(_ & _ & Hd)
         | (Ha & Hb & Hinf & _)]]]];
      try (rewrite Hd in Hsame; exfalso;
           exact (insert_non_empty _ _ _ Hsame)).
    repeat split; assumption.
  - intros (Ha & Hb & Hinf) m.
    rewrite safe_divide_branch_defer by assumption. reflexivity.
Qed.

(** X10: when both operands are classified Infinity and the three cells
    [*result_frac], [*result_exp] and the one named [result_exponent] are
    different objects, the resolver stores
    SPIRIX_UNDEF_TRANSFINITE_DIV_TRANSFINITE in [*result_frac] and the
    sentinel in the cell named [result_exponent]; [*result_exp] keeps its
    previous content, so that the pair read back through the two result
    pointers has an exponent other than the sentinel whenever the previous
    content was, and is then classified finite. *)
Theorem safe_divide_infinity_by_infinity_result
    (result_exponent : loc) (a_frac a_exp b_frac b_exp : Z)
    (result_frac result_exp : loc) (m : mem) (previous : Z) :
  spirix_is_infinity a_frac a_exp <> 0 ->
  spirix_is_infinity b_frac b_exp <> 0 ->
  result_frac <> result_exp ->
  result_exponent <> result_exp ->
  result_exponent <> result_frac ->
  m !! result_exp = Some previous ->
  previous <> SPIRIX_AMBIGUOUS_EXPONENT ->
  let m' := spirix_gpu_safe_divide result_exponent a_frac a_exp b_frac b_exp
              result_frac result_exp m in
  load_pair result_frac result_exp m'
    = Some (SPIRIX_UNDEF_TRANSFINITE_DIV_TRANSFINITE, previous)
  /\ m' !! result_exponent = Some SPIRIX_AMBIGUOUS_EXPONENT
  /\ spirix_is_undefined SPIRIX_UNDEF_TRANSFINITE_DIV_TRANSFINITE previous = 0
  /\ spirix_is_finite SPIRIX_UNDEF_TRANSFINITE_DIV_TRANSFINITE previous = 1.
Proof.
  intros Ha Hb Hne Hfree Hfree' Hprev Hns m'. subst m'.
  rewrite (safe_divide_branch_inf_inf _ _ _ _ _ _ _ Ha Hb).
  unfold seq, assign, load_pair.
  rewrite !lookup_insert. repeat case_decide; try congruence.
  rewrite Hprev.
  split; [reflexivity |]. split; [reflexivity |].
  classify SPIRIX_UNDEF_TRANSFINITE_DIV_TRANSFINITE; split; lia.
Qed.

Lemma safe_divide_infinity_by_infinity_result_witness :
  let m : mem := <[2%positive := 12]> (<[1%positive := 0]> ∅) in
  let m' := spirix_gpu_safe_divide 3%positive
              SPIRIX_INFINITY_FRACTION SPIRIX_AMBIGUOUS_EXPONENT
              SPIRIX_INFINITY_FRACTION SPIRIX_AMBIGUOUS_EXPONENT
              1%positive 2%positive m in
  spirix_is_infinity SPIRIX_INFINITY_FRACTION SPIRIX_AMBIGUOUS_EXPONENT <> 0
  /\ m !! 2%positive = Some 12
  /\ 12 <> SPIRIX_AMBIGUOUS_EXPONENT
  /\ load_pair 1%positive 2%positive m'
     = Some (SPIRIX_UNDEF_TRANSFINITE_DIV_TRANSFINITE, 12)
  /\ m' !! 3%positive = Some SPIRIX_AMBIGUOUS_EXPONENT
  /\ spirix_is_undefined SPIRIX_UNDEF_TRANSFINITE_DIV_TRANSFINITE 12 = 0
  /\ spirix_is_finite SPIRIX_UNDEF_TRANSFINITE_DIV_TRANSFINITE 12 = 1.
Proof.
  assert (Hi : spirix_is_infinity SPIRIX_INFINITY_FRACTION
                 SPIRIX_AMBIGUOUS_EXPONENT <> 0) by (vm_compute; discriminate).
  assert (Hne : 1%positive <> 2%positive) by discriminate.
  assert (Hfree : 3%positive <> 2%positive) by discriminate.
  assert (Hfree' : 3%positive <> 1%positive) by discriminate.
  assert (Hprev : (<[2%positive := 12]> (<[1%positive := 0]> (∅ : mem)))
                    !! 2%positive = Some 12) by reflexivity.
  assert (Hns : 12 <> SPIRIX_AMBIGUOUS_EXPONENT) by (vm_compute; discriminate).
  split; [exact Hi |]. split; [exact Hprev |]. split; [exact Hns |].
  exact (safe_divide_infinity_by_infinity_result 3%positive
           SPIRIX_INFINITY_FRACTION SPIRIX_AMBIGUOUS_EXPONENT
           SPIRIX_INFINITY_FRACTION SPIRIX_AMBIGUOUS_EXPONENT
           1%positive 2%positive _ 12 Hi Hi Hne Hfree Hfree' Hprev Hns).
Defined.

(** X11: whenever at least one operand is classified Zero, the resolver
    writes a whole special value through two distinct result pointers: the
    exponent read back is the sentinel, the fraction is one of the
    negligible-by-negligible, Infinity and Zero literals, and the pair is not
    classified finite. *)
Theorem safe_divide_zero_operand_special
    (result_exponent : loc) (a_frac a_exp b_frac b_exp : Z)
    (result_frac result_exp : loc) (m : mem) :
  spirix_is_zero a_frac a_exp <> 0 \/ spirix_is_zero b_frac b_exp <> 0 ->
  result_frac <> result_exp ->
  let m' := spirix_gpu_safe_divide result_exponent a_frac a_exp b_frac b_exp
              result_frac result_exp m in
  exists f,
    load_pair result_frac result_exp m' = Some (f, SPIRIX_AMBIGUOUS_EXPONENT)
    /\ In f [ SPIRIX_UNDEF_NEGLIGIBLE_DIV_NEGLIGIBLE;
              SPIRIX_INFINITY_FRACTION; SPIRIX_ZERO_FRACTION ]
    /\ spirix_is_finite f SPIRIX_AMBIGUOUS_EXPONENT = 0.
Proof.
  intros Hzero Hne m'. subst m'.
  destruct (safe_divide_cases result_exponent a_frac a_exp b_frac b_exp
              result_frac result_exp)
    as [(_ & _ & ->) | [(Ha & Hb & _) | [(_ & _ & ->) | [(_ & _ & ->)
       | (Ha & Hb & _ & _)]]]].
  - exists SPIRIX_UNDEF_NEGLIGIBLE_DIV_NEGLIGIBLE.
    split; [apply load_pair_stored; exact Hne |].
    split; [left; reflexivity | reflexivity].
  - exfalso. revert Ha Hb Hzero.
    rewrite !spirix_is_zero_spec, !spirix_is_infinity_spec.
    repeat case_decide; lia.
  - exists SPIRIX_INFINITY_FRACTION.
    split; [apply load_pair_stored; exact Hne |].
    split; [right; left; reflexivity | reflexivity].
  - exists SPIRIX_ZERO_FRACTION.
    split; [apply load_pair_stored; exact Hne |].
    split; [right; right; left; reflexivity | reflexivity].
  - exfalso. lia.
Qed.

Lemma safe_divide_zero_operand_special_witness :
  let m' := spirix_gpu_safe_divide 3%positive
              SPIRIX_UNDEF_GENERAL SPIRIX_AMBIGUOUS_EXPONENT
              SPIRIX_ZERO_FRACTION SPIRIX_AMBIGUOUS_EXPONENT
              1%positive 2%positive ∅ in
  (spirix_is_zero SPIRIX_UNDEF_GENERAL SPIRIX_AMBIGUOUS_EXPONENT <> 0
   \/ spirix_is_zero SPIRIX_ZERO_FRACTION SPIRIX_AMBIGUOUS_EXPONENT <> 0)
  /\ 1%positive <> 2%positive
  /\ exists f,
       load_pair 1%positive 2%positive m' = Some (f, SPIRIX_AMBIGUOUS_EXPONENT)
       /\ In f [ SPIRIX_UNDEF_NEGLIGIBLE_DIV_NEGLIGIBLE;
                 SPIRIX_INFINITY_FRACTION; SPIRIX_ZERO_FRACTION ]
       /\ spirix_is_finite f SPIRIX_AMBIGUOUS_EXPONENT = 0.
Proof.
  assert (Hz : spirix_is_zero SPIRIX_UNDEF_GENERAL SPIRIX_AMBIGUOUS_EXPONENT <> 0
               \/ spirix_is_zero SPIRIX_ZERO_FRACTION
                    SPIRIX_AMBIGUOUS_EXPONENT <> 0)
    by (right; vm_compute; discriminate).
  assert (Hne : 1%positive <> 2%positive) by discriminate.
  split; [exact Hz |]. split; [exact Hne |].
  exact (safe_divide_zero_operand_special 3%positive
           SPIRIX_UNDEF_GENERAL SPIRIX_AMBIGUOUS_EXPONENT
           SPIRIX_ZERO_FRACTION SPIRIX_AMBIGUOUS_EXPONENT
           1%positive 2%positive ∅ Hz Hne).
Defined.

(** X12: the result of dividing by a Zero denominator does not depend on the
    numerator, as long as the numerator is not Zero: two such divisions leave
    the same memory, so neither the numerator's sign nor its category
    (finite, Infinity, Undefined) reaches the result. *)
Theorem safe_divide_by_zero_ignores_numerator
    (result_exponent : loc) (a_frac a_exp a_frac' a_exp' b_frac b_exp : Z)
    (result_frac result_exp : loc) (m : mem) :
  spirix_is_zero b_frac b_exp <> 0 ->
  spirix_is_zero a_frac a_exp = 0 ->
  spirix_is_zero a_frac' a_exp' = 0 ->
  spirix_gpu_safe_divide result_exponent a_frac a_exp b_frac b_exp
    result_frac result_exp m
  = spirix_gpu_safe_divide result_exponent a_frac' a_exp' b_frac b_exp
      result_frac result_exp m.
Proof.
  intros Hb Ha Ha'.
  rewrite (safe_divide_branch_by_zero _ _ _ _ _ _ _ Ha Hb).
  rewrite (safe_divide_branch_by_zero _ _ _ _ _ _ _ Ha' Hb).
  reflexivity.
Qed.

Lemma safe_divide_by_zero_ignores_numerator_witness :
  spirix_is_zero SPIRIX_ZERO_FRACTION SPIRIX_AMBIGUOUS_EXPONENT <> 0
  /\ spirix_is_zero 5 0 = 0
  /\ spirix_is_zero (-5) 0 = 0
  /\ spirix_gpu_safe_divide 3%positive 5 0
       SPIRIX_ZERO_FRACTION SPIRIX_AMBIGUOUS_EXPONENT 1%positive 2%positive ∅
     = spirix_gpu_safe_divide 3%positive (-5) 0
         SPIRIX_ZERO_FRACTION SPIRIX_AMBIGUOUS_EXPONENT 1%positive 2%positive ∅.
Proof.
  assert (Hb : spirix_is_zero SPIRIX_ZERO_FRACTION SPIRIX_AMBIGUOUS_EXPONENT <> 0)
    by (vm_compute; discriminate).
  assert (Ha : spirix_is_zero 5 0 = 0) by reflexivity.
  assert (Ha' : spirix_is_zero (-5) 0 = 0) by reflexivity.
  split; [exact Hb |]. split; [exact Ha |]. split; [exact Ha' |].
  exact (safe_divide_by_zero_ignores_numerator 3%positive 5 0 (-5) 0
           SPIRIX_ZERO_FRACTION SPIRIX_AMBIGUOUS_EXPONENT
           1%positive 2%positive ∅ Hb Ha Ha').
Defined.
